(** * ine-python: the INE client ([ine_python/__init__.py])

    A shallow embedding of the [INE] class: the query-parameter encoding
    of [get_series], the request it sends through [get_input], the
    decoding of the response into a frame indexed by [Fecha], the
    language setting and the convenience wrappers. *)

From Stdlib Require Import ZArith String List.
From Stdlib Require Import Floats.SpecFloat.
From stdpp Require Import base option list strings gmap pretty.

Local Open Scope string_scope.
Local Open Scope list_scope.

(** ** Python values *)

(** The scalar values a caller passes as [series], [last], [geo], as a
    single [date], as a bound of a slice or as an element of a list. *)
Inductive pyval :=
  | PNone
  | PBool (b : bool)
  | PInt (z : Z)
  | PStr (s : string).

(** The [date] argument: [str, list or slice, optional]. *)
Inductive date_arg :=
  | DVal (v : pyval)
  | DSlice (start stop step : pyval)
  | DList (l : list pyval).

#[global] Instance pyval_eq_dec : EqDecision pyval.
Proof. solve_decision. Defined.

Definition is_None (v : pyval) : bool :=
  match v with PNone => true | _ => false end.

(** [f"{v}"]: the replacement field of an f-string, with no format spec. *)
Definition format (v : pyval) : string :=
  match v with
  | PNone => "None"
  | PBool true => "True"
  | PBool false => "False"
  | PInt z => pretty z
  | PStr s => s
  end.

(** [sep.join(parts)] *)
Fixpoint join (sep : string) (parts : list string) : string :=
  match parts with
  | [] => ""
  | [p] => p
  | p :: rest => p +:+ sep +:+ join sep rest
  end.

(** ** [get_series], lines 100-114: the query parameters *)

(** Lines 102-107: the rebinding of [date]. The list comprehension of
    line 107 builds the plain literal ["date={d}"] once per element. *)
Definition get_series_date (date : date_arg) : pyval :=
  match date with
  | DSlice start stop _ =>
      let init := if is_None start then PStr "" else start in
      let end_ := if is_None stop then PStr "" else stop in
      PStr (format init +:+ ":" +:+ format end_)
  | DList l => PStr (join "&" (map (fun d => "date={d}") l))
  | DVal v => v
  end.

(** [params.update(dict(k=v))] guarded by [v is not None]. *)
Definition update_if_not_None (k : string) (v : pyval)
    (params : gmap string pyval) : gmap string pyval :=
  if is_None v then params else <[k := v]> params.

Definition get_series_params (date : date_arg) (last geo : pyval)
    : gmap string pyval :=
  let params := ∅ in
  let date := get_series_date date in
  let params := update_if_not_None "date" date params in
  let params := update_if_not_None "last" last params in
  let params := update_if_not_None "geo" geo params in
  params.

(** ** Exceptions and results *)

(** The exceptions a call can end with, by class. [KeyError] carries the
    labels that were not found; the exceptions of the external libraries
    ([requests], [pandas]) carry their class name. *)
Inductive exn :=
  | KeyError (labels : list string)
  | NotImplementedError
  | TypeError
  | ExternalError (cls : string).

Definition exn_name (e : exn) : string :=
  match e with
  | KeyError _ => "KeyError"
  | NotImplementedError => "NotImplementedError"
  | TypeError => "TypeError"
  | ExternalError cls => cls
  end.

Inductive result (A : Type) :=
  | Ok (a : A)
  | Raise (e : exn).
Arguments Ok {A} a.
Arguments Raise {A} e.

Definition rbind {A B} (r : result A) (k : A -> result B) : result B :=
  match r with
  | Ok a => k a
  | Raise e => Raise e
  end.

Fixpoint rmap {A B} (f : A -> result B) (l : list A) : result (list B) :=
  match l with
  | [] => Ok []
  | a :: rest =>
      rbind (f a) (fun b => rbind (rmap f rest) (fun bs => Ok (b :: bs)))
  end.

(** ** Response payloads *)

#[local] Set Warnings "-register-all,-clear-no-such-hyp".

(** What [json.loads] returns: [None], [bool], [int], [float], [str],
    [list] and [dict] with [str] keys. A [float] is a binary64 value. *)
Inductive json :=
  | JNull
  | JBool (b : bool)
  | JInt (z : Z)
  | JFloat (f : spec_float)
  | JStr (s : string)
  | JArr (l : list json)
  | JObj (o : gmap string json).

(** [numpy.nan], the filler of a cell whose row has no such key. *)
Definition NaN : json := JFloat S754_nan.

(** [obj[key]] for a [str] key: only a [dict] can be subscripted so. *)
Definition subscript (obj : json) (key : string) : result json :=
  match obj with
  | JObj o =>
      match o !! key with
      | Some v => Ok v
      | None => Raise (KeyError [key])
      end
  | _ => Raise TypeError
  end.

(** ** Frames *)

(** A [pandas.DataFrame] over a [RangeIndex]: its number of rows and its
    columns by label. The order of the columns is not modelled. *)
Record DataFrame := mkDataFrame {
  df_len : nat;
  df_data : gmap string (list json)
}.

(** [pandas.DataFrame(rows)] for a list of dicts: one column per key that
    occurs in some row, one cell per row, [NaN] where the row has no such
    key. *)
Definition column_of (rows : list (gmap string json)) (c : string)
    : list json :=
  (fun r => default NaN (r !! c)) <$> rows.

Definition DataFrame_of_records (rows : list (gmap string json))
    : DataFrame :=
  {| df_len := length rows;
     df_data := set_to_map (fun c => (c, column_of rows c))
                           (⋃ (dom <$> rows) : gset string) |}.

Definition as_record (j : json) : option (gmap string json) :=
  match j with JObj o => Some o | _ => None end.

Definition as_records (j : json) : option (list (gmap string json)) :=
  match j with
  | JArr l => mapM as_record l
  | _ => None
  end.

(** [df[labels]] for a list of labels: every label must be a column. *)
Definition getitem (df : DataFrame) (labels : list string)
    : result DataFrame :=
  let missing :=
    filter (fun c => df_data df !! c = None) labels in
  match missing with
  | [] => Ok {| df_len := df_len df;
                df_data := filter (fun kv => kv.1 ∈ labels) (df_data df) |}
  | _ => Raise (KeyError missing)
  end.

(** A [datetime64[ms]] value: a count of milliseconds since the epoch,
    or [NaT]. *)
Inductive datetime64ms :=
  | NaT
  | Timestamp (ms : Z).

(** The frame [get_series] returns: the index [Fecha] and the one column
    [Valor], row by row. *)
Record SeriesFrame := mkSeriesFrame {
  sf_Fecha : list datetime64ms;
  sf_Valor : list spec_float
}.

Definition records (fr : SeriesFrame) : list (datetime64ms * spec_float) :=
  zip (sf_Fecha fr) (sf_Valor fr).

(** ** The client and the requests it sends *)

Record INE := mkINE { endpoint : string }.

(** A call [requests.get(url, params=params, verify=False)]. *)
Record request := mkRequest {
  url : string;
  params : gmap string pyval
}.

(** The client object and the requests sent so far, oldest first. *)
Record state := mkState {
  self : INE;
  sent : list request
}.

Definition M (A : Type) : Type := state -> result A * state.

Definition ret {A} (a : A) : M A := fun st => (Ok a, st).
Definition raise {A} (e : exn) : M A := fun st => (Raise e, st).
Definition lift {A} (r : result A) : M A := fun st => (r, st).
Definition bind {A B} (m : M A) (k : A -> M B) : M B :=
  fun st =>
    match m st with
    | (Ok a, st') => k a st'
    | (Raise e, st') => (Raise e, st')
    end.

Notation "'let*' x ':=' m 'in' k" := (bind m (fun x => k))
  (at level 10, x name, m at level 100, k at level 200).

(** ** The methods of [INE] *)

Definition base_url : string := "https://servicios.ine.es/wstempus/js/".

(** [INE.__init__], lines 13-14. *)
Definition INE_init : INE :=
  let idioma := PStr "ES" in
  {| endpoint := base_url +:+ format idioma |}.

Definition set_language (language : pyval) : M unit :=
  fun st =>
    (Ok tt, {| self := {| endpoint := base_url +:+ format language |};
               sent := sent st |}).

(** The actual parameters of a call of [get_tables]: calling it on an
    instance passes the instance as the first positional argument. *)
Inductive actual :=
  | AInstance (c : INE)
  | AValue (v : pyval).

(** [def get_tables():] has no formal parameter: a call with any actual
    parameter is refused before the body runs. *)
Definition get_tables (args : list actual) : M unit :=
  match args with
  | [] => raise NotImplementedError
  | _ :: _ => raise TypeError
  end.

(** [client.get_tables()] *)
Definition call_get_tables_on_instance : M unit :=
  fun st => get_tables [AInstance (self st)] st.

(** [INE.get_tables()] *)
Definition call_get_tables_on_class : M unit := get_tables [].

(** ** Auxiliary definitions for the statements *)

(** A bound of a slice of date strings: a string or [None]. *)
Definition bound (o : option string) : pyval :=
  match o with
  | Some s => PStr s
  | None => PNone
  end.

(** What joining the dates of a list with ["&date="] would give. *)
Definition dates_joined (l : list string) : string := join "&date=" l.

(** The request goes to a path below the endpoint of client [c]. *)
Definition below_endpoint (c : INE) (r : request) : Prop :=
  exists path, url r = endpoint c +:+ "/" +:+ path.

(** Some row has the key [c]. *)
Definition has_column (rows : list (gmap string json)) (c : string) : bool :=
  existsb (fun r => bool_decide (is_Some (r !! c))) rows.

(** The labels of [["Fecha", "Valor"]] that no row has. *)
Definition missing_columns (rows : list (gmap string json)) : list string :=
  filter (fun c => has_column rows c = false) ["Fecha"; "Valor"].

(** A row without its other fields. *)
Definition only_Fecha_Valor (r : gmap string json) : gmap string json :=
  filter (fun kv => kv.1 = "Fecha" \/ kv.1 = "Valor") r.

(** The URL is one of the service: it extends [base_url]. *)
Definition under_base_url (u : string) : Prop :=
  exists rest, u = base_url +:+ rest.

(** ** Stand-ins for the collaborators, to run examples *)


(** A transport that answers differently as requests go by. *)
Definition counting_http_get : list request -> request -> result json :=
  fun before _ => Ok (JInt (Z.of_nat (length before))).

(** A transport that answers every request with the same payload. *)
Definition constant_http_get (payload : json)
    : list request -> request -> result json :=
  fun _ _ => Ok payload.

Definition no_DataFrame_other : json -> result DataFrame :=
  fun _ => Raise (ExternalError "ValueError").

(** Casts of the cells the service sends: an [int] is a count of
    milliseconds, a [float] is kept, [NaN] is [NaT]. *)
Definition simple_astype_datetime64ms (j : json) : result datetime64ms :=
  match j with
  | JInt z => Ok (Timestamp z)
  | JFloat S754_nan => Ok NaT
  | _ => Raise (ExternalError "ValueError")
  end.

Definition simple_astype_float64 (j : json) : result spec_float :=
  match j with
  | JFloat f => Ok f
  | JInt z => Ok (binary_normalize 53 1024 z 0 false)
  | _ => Raise (ExternalError "ValueError")
  end.

Definition st0 : state := {| self := INE_init; sent := [] |}.

(** 100.0 and 100.5 as binary64 values. *)
Definition f100 : spec_float := S754_finite false 7036874417766400 (-46).
Definition f100_5 : spec_float := S754_finite false 7072058789855232 (-46).

(** Two records of the service, the first with a field that is not kept. *)
Definition rows_two : list (gmap string json) :=
  [ {[ "Fecha" := JInt 946684800000; "Valor" := JFloat f100;
       "Secreto" := JBool false ]};
    {[ "Fecha" := JInt 949363200000; "Valor" := JFloat f100_5 ]} ].

Definition dict_two : gmap string json :=
  {[ "Data" := JArr (JObj <$> rows_two) ]}.

Definition payload_two : json := JObj dict_two.

(** A list with no record at all. *)
Definition dict_empty_Data : gmap string json := {[ "Data" := JArr [] ]}.

(** Records without [Valor]. *)
Definition rows_no_Valor : list (gmap string json) :=
  [ {[ "Fecha" := JInt 946684800000 ]} ].

Definition dict_no_Valor : gmap string json :=
  {[ "Data" := JArr (JObj <$> rows_no_Valor) ]}.

(** A second record whose [Valor] does not cast. *)
Definition rows_bad_Valor : list (gmap string json) :=
  [ {[ "Fecha" := JInt 946684800000; "Valor" := JFloat f100 ]};
    {[ "Fecha" := JInt 949363200000; "Valor" := JStr "n/a" ]} ].

Definition dict_bad_Valor : gmap string json :=
  {[ "Data" := JArr (JObj <$> rows_bad_Valor) ]}.

(** A second record that has no [Valor], after one that has. *)
Definition rows_partial : list (gmap string json) :=
  [ {[ "Fecha" := JInt 946684800000; "Valor" := JFloat f100 ]};
    {[ "Fecha" := JInt 949363200000 ]} ].

Definition dict_partial : gmap string json :=
  {[ "Data" := JArr (JObj <$> rows_partial) ]}.

(** The two records again, in a payload with the metadata of the series
    and with other fields in the records. *)
Definition rows_two_verbose : list (gmap string json) :=
  [ {[ "Fecha" := JInt 946684800000; "Valor" := JFloat f100;
       "Anyo" := JInt 2000; "FK_Periodo" := JInt 1 ]};
    {[ "Fecha" := JInt 949363200000; "Valor" := JFloat f100_5;
       "Anyo" := JInt 2000 ]} ].

Definition dict_two_verbose : gmap string json :=
  {[ "COD" := JStr "IPC206449";
     "Data" := JArr (JObj <$> rows_two_verbose) ]}.

(** ** The methods that send requests *)

(** The libraries the client calls are parameters of the development:
    nothing is assumed of them but their types. *)
Section Client.

(** [requests.get] followed by [json.loads] of the body: the answer to
    a request, given the requests sent before it, or the exception of
    either. *)
Variable http_get : list request -> request -> result json.

(** [pandas.DataFrame] on anything but a list of dicts. *)
Variable DataFrame_other : json -> result DataFrame.

(** The casts of [astype] to ["datetime64[ms]"] and to ["float64"], taken
    cell by cell: the value of a cell, or the exception of its cast. *)
Variable astype_datetime64ms : json -> result datetime64ms.
Variable astype_float64 : json -> result spec_float.

Definition pd_DataFrame (data : json) : result DataFrame :=
  match as_records data with
  | Some rows => Ok (DataFrame_of_records rows)
  | None => DataFrame_other data
  end.

Definition get_input (input_str : pyval) (kwargs : gmap string pyval)
    : M json :=
  fun st =>
    let endpoint_input := endpoint (self st) +:+ "/" +:+ format input_str in
    let r := {| url := endpoint_input; params := kwargs |} in
    (http_get (sent st) r, {| self := self st; sent := sent st ++ [r] |}).

Definition get_functions_default : pyval := PStr "OPERACIONES_DISPONIBLES".

Definition get_functions (function : pyval) : M DataFrame :=
  fun st =>
    let endpoint_function := endpoint (self st) +:+ "/" +:+ format function in
    let r := {| url := endpoint_function; params := ∅ |} in
    (rbind (http_get (sent st) r) pd_DataFrame,
     {| self := self st; sent := sent st ++ [r] |}).

(** Line 118-119: [astype(dtype)] with
    [dtype = dict(Fecha="datetime64[ms]", Valor="float64")], then
    [set_index("Fecha")]. *)
Definition astype_set_index (data : DataFrame) : result SeriesFrame :=
  match df_data data !! "Fecha", df_data data !! "Valor" with
  | Some fecha, Some valor =>
      rbind (rmap astype_datetime64ms fecha) (fun fecha' =>
      rbind (rmap astype_float64 valor) (fun valor' =>
      Ok {| sf_Fecha := fecha'; sf_Valor := valor' |}))
  | None, _ => Raise (KeyError ["Fecha"])
  | _, None => Raise (KeyError ["Valor"])
  end.

(** Lines 117-119. *)
Definition get_series_decode (series_dict : json) : result SeriesFrame :=
  rbind (subscript series_dict "Data") (fun Data =>
  rbind (pd_DataFrame Data) (fun df =>
  rbind (getitem df ["Fecha"; "Valor"]) (fun data =>
  astype_set_index data))).

Definition get_series (series : pyval) (date : date_arg) (last geo : pyval)
    : M SeriesFrame :=
  let params := get_series_params date last geo in
  let* series_dict :=
    get_input (PStr ("DATOS_SERIE/" +:+ format series)) params in
  lift (get_series_decode series_dict).

Definition date_is_None (date : date_arg) : bool :=
  match date with DVal PNone => true | _ => false end.

Definition get_ipc (date : date_arg) (last geo : pyval) : M SeriesFrame :=
  let date :=
    if date_is_None date then DSlice (PStr "20000101") PNone PNone
    else date in
  get_series (PStr "IPC206449") date last geo.

Definition get_cntr2010 (date : date_arg) (last geo : pyval)
    : M SeriesFrame :=
  get_series (PInt 30024) date last geo.

(** *** Sequences of calls on one client *)

Inductive call :=
  | Call_set_language (language : pyval)
  | Call_get_functions (function : pyval)
  | Call_get_input (input_str : pyval) (kwargs : gmap string pyval)
  | Call_get_series (series : pyval) (date : date_arg) (last geo : pyval)
  | Call_get_ipc (date : date_arg) (last geo : pyval)
  | Call_get_cntr2010 (date : date_arg) (last geo : pyval)
  | Call_get_tables.

(** What the caller gets back from a call. *)
Inductive outcome :=
  | ONone (r : result unit)
  | OFrame (r : result DataFrame)
  | OJson (r : result json)
  | OSeries (r : result SeriesFrame).

Definition observe {A} (wrap : result A -> outcome) (m : M A)
    : state -> outcome * state :=
  fun st => (wrap (m st).1, (m st).2).

Definition exec (c : call) : state -> outcome * state :=
  match c with
  | Call_set_language language => observe ONone (set_language language)
  | Call_get_functions function => observe OFrame (get_functions function)
  | Call_get_input input_str kwargs =>
      observe OJson (get_input input_str kwargs)
  | Call_get_series series date last geo =>
      observe OSeries (get_series series date last geo)
  | Call_get_ipc date last geo => observe OSeries (get_ipc date last geo)
  | Call_get_cntr2010 date last geo =>
      observe OSeries (get_cntr2010 date last geo)
  | Call_get_tables => observe ONone call_get_tables_on_instance
  end.

(** The calls of a program in order, each outcome kept, whether it is a
    value or an exception the caller caught. *)
Fixpoint run (cs : list call) (st : state) : list outcome * state :=
  match cs with
  | [] => ([], st)
  | c :: rest =>
      let '(o, st1) := exec c st in
      let '(os, st2) := run rest st1 in
      (o :: os, st2)
  end.

Definition is_set_language (c : call) : bool :=
  match c with Call_set_language _ => true | _ => false end.

(** The calls that go to the service. *)
Definition sends_request (c : call) : bool :=
  match c with
  | Call_set_language _ | Call_get_tables => false
  | _ => true
  end.


(** The one request [get_series] sends. *)
Definition series_request (c : INE) (series : pyval) (date : date_arg)
    (last geo : pyval) : request :=
  {| url := endpoint c +:+ "/" +:+ "DATOS_SERIE/" +:+ format series;
     params := get_series_params date last geo |}.

(** The casts of the two columns of the rows, [Fecha] first. *)
Definition cast_columns (rows : list (gmap string json))
    : result SeriesFrame :=
  rbind (rmap astype_datetime64ms (column_of rows "Fecha")) (fun fecha =>
  rbind (rmap astype_float64 (column_of rows "Valor")) (fun valor =>
  Ok {| sf_Fecha := fecha; sf_Valor := valor |})).

(** * Properties *)

(** ** The request of [get_series] *)

Lemma get_series_state series date last geo st :
  (get_series series date last geo st).2
  = {| self := self st;
       sent := sent st ++ [series_request (self st) series date last geo] |}.
Proof.
  unfold get_series, bind, get_input, lift, series_request; simpl.
  destruct (http_get _ _); reflexivity.
Qed.

Lemma get_series_result series date last geo st :
  (get_series series date last geo st).1
  = rbind (http_get (sent st) (series_request (self st) series date last geo))
          get_series_decode.
Proof.
  unfold get_series, bind, get_input, lift, series_request; simpl.
  destruct (http_get _ _); reflexivity.
Qed.

(** ** The encoding of the parameters *)

Lemma lookup_update_if_not_None k v (m : gmap string pyval) k' :
  update_if_not_None k v m !! k'
  = if decide (k = k' /\ v <> PNone) then Some v else m !! k'.
Proof.
  unfold update_if_not_None.
  destruct v; simpl; case_decide as H;
    try (destruct H as [-> H]); try congruence;
    try (rewrite lookup_insert_eq; reflexivity);
    try reflexivity;
    rewrite lookup_insert_ne; auto; intros ->; apply H; split; congruence.
Qed.

Lemma params_lookup_date date last geo :
  get_series_params date last geo !! "date"
  = if is_None (get_series_date date) then None
    else Some (get_series_date date).
Proof.
  unfold get_series_params.
  rewrite !lookup_update_if_not_None.
  destruct (get_series_date date); simpl;
    repeat case_decide; naive_solver.
Qed.

Lemma get_series_date_slice start stop step :
  get_series_date (DSlice (bound start) (bound stop) step)
  = PStr (default "" start +:+ ":" +:+ default "" stop).
Proof. destruct start, stop; reflexivity. Qed.

Lemma params_only_date date :
  is_None (get_series_date date) = false ->
  get_series_params date PNone PNone = {[ "date" := get_series_date date ]}.
Proof.
  intros H. unfold get_series_params, update_if_not_None; simpl.
  rewrite H. apply insert_empty.
Qed.

(** The literal of line 107 does not mention the elements: the value only
    depends on how many there are. *)
Lemma get_series_date_list l :
  get_series_date (DList l)
  = PStr (join "&" (replicate (length l) "date={d}")).
Proof.
  simpl. f_equal. f_equal. induction l as [|d l IH]; simpl; congruence.
Qed.

(** C1. For a slice of date strings, each bound a string or [None], the
    parameters of [get_series] hold one [date] entry, the string
    start, [":"], stop with an absent bound rendered empty; with no
    [last] and no [geo] it is the only entry, and it is the [date] of
    the request that is sent. ["20000101:"] and [":20201231"] are the
    open-ended cases. *)
Theorem C1_slice_date_parameter
    (start stop : option string) (step last geo series : pyval)
    (st : state) :
  let date := DSlice (bound start) (bound stop) step in
  let value := PStr (default "" start +:+ ":" +:+ default "" stop) in
  get_series_params date last geo !! "date" = Some value
  /\ get_series_params date PNone PNone = {[ "date" := value ]}
  /\ (exists r,
        sent (get_series series date last geo st).2 = sent st ++ [r]
        /\ params r !! "date" = Some value)
  /\ get_series_date (DSlice (PStr "20000101") PNone step)
      = PStr "20000101:"
  /\ get_series_date (DSlice PNone (PStr "20201231") step)
      = PStr ":20201231".
Proof.
  intros date value.
  assert (Hd : get_series_date date = value)
    by apply get_series_date_slice.
  assert (Hl : get_series_params date last geo !! "date" = Some value)
    by (rewrite params_lookup_date, Hd; reflexivity).
  split; [exact Hl|].
  split; [rewrite <- Hd; apply params_only_date; rewrite Hd; reflexivity|].
  split; [|split; reflexivity].
  eexists; split; [rewrite get_series_state; reflexivity|exact Hl].
Qed.

(** C2. On the list [["20200101", "20200102"]] the [date] parameter is
    the literal ["date={d}"] repeated and joined with ["&"]; it is not
    the two dates joined with ["&date="]. *)
Theorem C2_list_dates_not_interpolated :
  get_series_params (DList [PStr "20200101"; PStr "20200102"]) PNone PNone
  = {[ "date" := PStr "date={d}&date={d}" ]}
  /\ dates_joined ["20200101"; "20200102"] = "20200101&date=20200102"
  /\ get_series_params (DList [PStr "20200101"; PStr "20200102"])
       PNone PNone !! "date"
     <> Some (PStr (dates_joined ["20200101"; "20200102"])).
Proof.
  split; [reflexivity|]. split; [reflexivity|].
  rewrite params_lookup_date. simpl. intros H. discriminate H.
Qed.

(** C5. With [date=None] the parameters have no [date] entry; a single
    date string is the [date] entry as it is, and with no [last] and no
    [geo] the parameters are exactly that entry; it is what the request
    carries. *)
Theorem C5_absent_and_single_date
    (d : string) (series last geo : pyval) (st : state) :
  get_series_params (DVal PNone) last geo !! "date" = None
  /\ get_series_params (DVal (PStr d)) last geo !! "date" = Some (PStr d)
  /\ get_series_params (DVal (PStr d)) PNone PNone = {[ "date" := PStr d ]}
  /\ (exists r,
        sent (get_series series (DVal (PStr d)) PNone PNone st).2
        = sent st ++ [r]
        /\ params r = {[ "date" := PStr d ]}).
Proof.
  split; [rewrite params_lookup_date; reflexivity|].
  split; [rewrite params_lookup_date; reflexivity|].
  split; [apply (params_only_date (DVal (PStr d))); reflexivity|].
  eexists; split; [rewrite get_series_state; reflexivity|].
  apply (params_only_date (DVal (PStr d))); reflexivity.
Qed.

(** C6. With only [last=n], [n] positive, the parameters are
    [{"last": n}]; with [geo=1] and [last=5] and no date they are
    [{"geo": 1, "last": 5}], with no [date] entry. Both are what the
    request carries. *)
Theorem C6_last_and_geo (n : Z) (series : pyval) (st : state) :
  (0 < n)%Z ->
  get_series_params (DVal PNone) (PInt n) PNone = {[ "last" := PInt n ]}
  /\ get_series_params (DVal PNone) (PInt 5) (PInt 1)
      = {[ "geo" := PInt 1; "last" := PInt 5 ]}
  /\ get_series_params (DVal PNone) (PInt 5) (PInt 1) !! "date" = None
  /\ (exists r,
        sent (get_series series (DVal PNone) (PInt n) PNone st).2
        = sent st ++ [r]
        /\ params r = {[ "last" := PInt n ]}).
Proof.
  intros _.
  assert (H : get_series_params (DVal PNone) (PInt n) PNone
              = {[ "last" := PInt n ]})
    by (unfold get_series_params, update_if_not_None; simpl;
        apply insert_empty).
  split; [exact H|].
  split; [reflexivity|].
  split; [reflexivity|].
  eexists; split; [rewrite get_series_state; reflexivity|exact H].
Qed.

(** C10. [get_ipc] with [date=None] is [get_series] on ["IPC206449"]
    with [slice("20000101", None)], so its request asks for
    [DATOS_SERIE/IPC206449] with the [date] ["20000101:"]; any other
    [date] goes to [get_series] as it is. *)
Theorem C10_get_ipc_default_date
    (date : date_arg) (last geo : pyval) (st : state) :
  date_is_None date = false ->
  get_ipc date last geo = get_series (PStr "IPC206449") date last geo
  /\ get_ipc (DVal PNone) last geo
      = get_series (PStr "IPC206449")
          (DSlice (PStr "20000101") PNone PNone) last geo
  /\ (exists r,
        sent (get_ipc (DVal PNone) last geo st).2 = sent st ++ [r]
        /\ url r = endpoint (self st) +:+ "/DATOS_SERIE/IPC206449"
        /\ params r !! "date" = Some (PStr "20000101:")).
Proof.
  intros Hd. split.
  - unfold get_ipc. rewrite Hd. reflexivity.
  - split; [reflexivity|].
    eexists; split; [|split].
    + unfold get_ipc; simpl. rewrite get_series_state.
      reflexivity.
    + reflexivity.
    + simpl. rewrite params_lookup_date. reflexivity.
Qed.

(** ** The language setting and the requests of a sequence of calls *)

Lemma run_cons c cs st :
  run (c :: cs) st
  = ((exec c st).1 :: (run cs (exec c st).2).1, (run cs (exec c st).2).2).
Proof.
  simpl. destruct (exec c st) as [o st1]; simpl.
  destruct (run cs st1); reflexivity.
Qed.

Lemma run_app cs cs' st :
  run (cs ++ cs') st
  = ((run cs st).1 ++ (run cs' (run cs st).2).1, (run cs' (run cs st).2).2).
Proof.
  revert st. induction cs as [|c cs IH]; intros st.
  - simpl. destruct (run cs' st); reflexivity.
  - rewrite <- app_comm_cons, !run_cons, IH. reflexivity.
Qed.

(** Every call but [set_language] keeps the client as it is and only
    adds requests below its endpoint. *)
Lemma exec_keeps_endpoint c st :
  is_set_language c = false ->
  self (exec c st).2 = self st
  /\ exists new, sent (exec c st).2 = sent st ++ new
                /\ Forall (below_endpoint (self st)) new.
Proof.
  pose proof (fun series date last geo =>
    get_series_state series date last geo st) as Hs.
  destruct c; intros Hc; try discriminate Hc; simpl;
    unfold get_ipc, get_cntr2010; rewrite ?Hs; simpl;
    (split; [reflexivity|]);
    try (eexists [_]; split; [reflexivity|];
         repeat constructor; eexists; reflexivity).
  exists []. rewrite app_nil_r. split; [reflexivity|constructor].
Qed.

Lemma run_keeps_endpoint cs st :
  forallb (fun c => negb (is_set_language c)) cs = true ->
  self (run cs st).2 = self st
  /\ exists new, sent (run cs st).2 = sent st ++ new
                /\ Forall (below_endpoint (self st)) new.
Proof.
  revert st. induction cs as [|c cs IH]; intros st Hcs.
  - simpl. split; [reflexivity|]. exists [].
    rewrite app_nil_r. split; [reflexivity|constructor].
  - simpl in Hcs. apply andb_prop in Hcs as [Hc Hcs].
    apply negb_true_iff in Hc.
    destruct (exec_keeps_endpoint c st Hc) as (Hself & new & Hsent & Hnew).
    destruct (IH (exec c st).2 Hcs) as (Hself' & new' & Hsent' & Hnew').
    rewrite run_cons; simpl. split; [congruence|].
    exists (new ++ new'). rewrite Hsent', Hsent, app_assoc.
    split; [reflexivity|].
    apply Forall_app; split; [exact Hnew|].
    rewrite <- Hself. exact Hnew'.
Qed.

(** C7. [get_tables] called on a client, [client.get_tables()], ends
    with [TypeError], not with [NotImplementedError]: the definition
    has no [self] parameter. Only the call on the class, with no
    argument at all, reaches the [raise]. Neither sends a request nor
    changes the client. *)
Theorem C7_get_tables_on_instance_TypeError (st : state) :
  exec Call_get_tables st = (ONone (Raise TypeError), st)
  /\ call_get_tables_on_instance st = (Raise TypeError, st)
  /\ call_get_tables_on_class st = (Raise NotImplementedError, st).
Proof. repeat split. Qed.

(** C8. [set_language] with a language code, after any calls [cs] and
    before calls [cs'] that do not set the language again: the outcomes
    of [cs] are what they are without it, it returns [None], the
    requests sent so far stay as they are, the endpoint becomes the
    base URL followed by the code, and every request of [cs'] goes
    below that endpoint. *)
Theorem C8_set_language_frame
    (language : string) (cs cs' : list call) (st : state) :
  forallb (fun c => negb (is_set_language c)) cs' = true ->
  let before := run cs st in
  let after := run (cs ++ Call_set_language (PStr language) :: cs') st in
  (set_language (PStr language) before.2).1 = Ok tt
  /\ (set_language (PStr language) before.2).2
      = {| self := {| endpoint := base_url +:+ language |};
           sent := sent before.2 |}
  /\ (exists os', after.1 = before.1 ++ ONone (Ok tt) :: os')
  /\ self after.2
      = {| endpoint := "https://servicios.ine.es/wstempus/js/" +:+ language |}
  /\ (exists new,
        sent after.2 = sent before.2 ++ new
        /\ Forall (fun r => exists path,
                     url r = (base_url +:+ language) +:+ "/" +:+ path)
                  new).
Proof.
  intros Hcs' before after.
  split; [reflexivity|]. split; [reflexivity|].
  subst after. rewrite run_app, run_cons. fold before. simpl.
  set (st1 := {| self := {| endpoint := base_url +:+ language |};
                 sent := sent before.2 |}).
  destruct (run_keeps_endpoint cs' st1 Hcs') as (Hself & new & Hsent & Hnew).
  split; [eexists; reflexivity|].
  split; [exact Hself|].
  exists new. split; [exact Hsent|exact Hnew].
Qed.

(** C9. A new client has the endpoint
    ["https://servicios.ine.es/wstempus/js/ES"], which is also what
    [set_language("ES")] leaves on any client; and in any sequence of
    calls on a new client without [set_language], the client keeps
    that endpoint and every request goes below it. *)
Theorem C9_default_language_ES (cs : list call) (st : state) :
  forallb (fun c => negb (is_set_language c)) cs = true ->
  endpoint INE_init = "https://servicios.ine.es/wstempus/js/ES"
  /\ self (set_language (PStr "ES") st).2 = INE_init
  /\ self (run cs {| self := INE_init; sent := [] |}).2 = INE_init
  /\ Forall (fun r => exists path,
               url r = "https://servicios.ine.es/wstempus/js/ES/" +:+ path)
            (sent (run cs {| self := INE_init; sent := [] |}).2).
Proof.
  intros Hcs. split; [reflexivity|]. split; [reflexivity|].
  destruct (run_keeps_endpoint cs {| self := INE_init; sent := [] |} Hcs)
    as (Hself & new & Hsent & Hnew).
  split; [exact Hself|].
  rewrite Hsent; simpl.
  eapply Forall_impl; [exact Hnew|].
  intros r [path Hr]. exists path. rewrite Hr. reflexivity.
Qed.

(** ** The decoding of the response *)

Lemma has_column_true rows c :
  has_column rows c = true <-> exists r, r ∈ rows /\ is_Some (r !! c).
Proof.
  unfold has_column. rewrite existsb_exists. split.
  - intros (r & Hin & Hr). exists r.
    apply list_elem_of_In in Hin. apply bool_decide_eq_true in Hr. auto.
  - intros (r & Hin & Hr). exists r.
    apply list_elem_of_In in Hin. split; [exact Hin|].
    apply bool_decide_eq_true. exact Hr.
Qed.

Lemma elem_of_columns (rows : list (gmap string json)) (c : string) :
  c ∈ (⋃ (dom <$> rows) : gset string) <-> has_column rows c = true.
Proof.
  rewrite has_column_true, elem_of_union_list. split.
  - intros (X & HX & Hc). apply list_elem_of_fmap in HX as (r & -> & Hr).
    exists r. split; [exact Hr|]. apply elem_of_dom. exact Hc.
  - intros (r & Hr & Hc). exists (dom r). split.
    + apply list_elem_of_fmap. exists r. auto.
    + apply elem_of_dom. exact Hc.
Qed.

Lemma lookup_DataFrame_of_records rows c :
  df_data (DataFrame_of_records rows) !! c
  = if has_column rows c then Some (column_of rows c) else None.
Proof.
  unfold DataFrame_of_records; simpl.
  apply option_eq; intros col.
  rewrite lookup_set_to_map by (intros y y' _ _ H; exact H).
  destruct (has_column rows c) eqn:Hc.
  - split.
    + intros (y & _ & Hy). injection Hy as -> <-. reflexivity.
    + intros H. injection H as <-. exists c.
      split; [apply elem_of_columns; exact Hc|reflexivity].
  - split; [|discriminate].
    intros (y & Hy & Hf). injection Hf as -> _.
    apply elem_of_columns in Hy. congruence.
Qed.

Lemma as_records_objects (rows : list (gmap string json)) :
  as_records (JArr (JObj <$> rows)) = Some rows.
Proof. simpl. apply mapM_fmap_Some. reflexivity. Qed.

Lemma rmap_Ok_Forall2 {A B} (f : A -> result B) l l' :
  rmap f l = Ok l' <-> Forall2 (fun x y => f x = Ok y) l l'.
Proof.
  revert l'. induction l as [|x l IH]; intros l'; simpl.
  - split; [intros [= <-]; constructor|intros H; inversion H; reflexivity].
  - destruct (f x) as [y|e] eqn:Hx; simpl.
    + destruct (rmap f l) as [ys|e] eqn:Hl; simpl.
      * split.
        -- intros [= <-]. constructor; [exact Hx|]. apply IH. reflexivity.
        -- intros H. inversion H as [|? y' ? ys' Hy Hys]; subst.
           apply IH in Hys. congruence.
      * split; [discriminate|].
        intros H. inversion H as [|? y' ? ys' Hy Hys]; subst.
        apply IH in Hys. discriminate.
    + split; [discriminate|].
      intros H. inversion H; subst. congruence.
Qed.

Lemma rmap_total {A B} (f : A -> result B) l :
  (forall x, x ∈ l -> exists y, f x = Ok y) -> exists l', rmap f l = Ok l'.
Proof.
  induction l as [|x l IH]; intros H; simpl.
  - eexists; reflexivity.
  - destruct (H x) as [y Hy]; [left|]. rewrite Hy; simpl.
    destruct IH as [l' Hl']; [intros x' Hx'; apply H; right; exact Hx'|].
    rewrite Hl'; simpl. eexists; reflexivity.
Qed.

(** The first cell that does not cast decides the exception. *)
Lemma rmap_Raise {A B} (f : A -> result B) l e :
  rmap f l = Raise e <->
  exists i x, l !! i = Some x /\ f x = Raise e
              /\ forall j x', j < i -> l !! j = Some x' ->
                              exists y, f x' = Ok y.
Proof.
  revert e. induction l as [|x l IH]; intros e; simpl.
  - split; [discriminate|]. intros (i & x & Hi & _). destruct i; discriminate.
  - destruct (f x) as [y|e'] eqn:Hx; simpl.
    + destruct (rmap f l) as [ys|e'] eqn:Hl; simpl.
      * split; [discriminate|].
        intros (i & x' & Hi & Hx' & Hlt). destruct i as [|i]; simpl in Hi.
        -- congruence.
        -- assert (Ok ys = Raise e) as He; [|discriminate He].
           apply IH. exists i, x'.
           split; [exact Hi|]. split; [exact Hx'|].
           intros j x'' Hj Hj'. apply (Hlt (S j) x''); [lia|exact Hj'].
      * split.
        -- intros [= <-]. destruct (proj1 (IH e') eq_refl)
             as (i & x' & Hi & Hx' & Hlt).
           exists (S i), x'. split; [exact Hi|]. split; [exact Hx'|].
           intros [|j] x'' Hj Hj'; simpl in Hj'.
           ++ injection Hj' as <-. eauto.
           ++ apply (Hlt j x''); [lia|exact Hj'].
        -- intros (i & x' & Hi & Hx' & Hlt). destruct i as [|i]; simpl in Hi.
           ++ congruence.
           ++ apply IH. exists i, x'.
              split; [exact Hi|]. split; [exact Hx'|].
              intros j x'' Hj Hj'. apply (Hlt (S j) x''); [lia|exact Hj'].
    + split.
      * intros [= <-]. exists 0, x. split; [reflexivity|].
        split; [exact Hx|]. intros j x' Hj. lia.
      * intros (i & x' & Hi & Hx' & Hlt). destruct i as [|i]; simpl in Hi.
        -- congruence.
        -- destruct (Hlt 0 x) as [y Hy]; [lia|reflexivity|]. congruence.
Qed.

Lemma only_Fecha_Valor_lookup r c :
  c = "Fecha" \/ c = "Valor" -> only_Fecha_Valor r !! c = r !! c.
Proof.
  intros Hc. apply option_eq; intros x.
  unfold only_Fecha_Valor. rewrite map_lookup_filter_Some.
  split; [intros [H _]; exact H|intros H; split; [exact H|exact Hc]].
Qed.

Lemma column_of_only rows c :
  c = "Fecha" \/ c = "Valor" ->
  column_of (only_Fecha_Valor <$> rows) c = column_of rows c.
Proof.
  intros Hc. unfold column_of. rewrite <- list_fmap_compose.
  apply list_fmap_ext. intros i r _; simpl.
  rewrite only_Fecha_Valor_lookup by exact Hc. reflexivity.
Qed.

Lemma has_column_only rows c :
  c = "Fecha" \/ c = "Valor" ->
  has_column (only_Fecha_Valor <$> rows) c = has_column rows c.
Proof.
  intros Hc. unfold has_column.
  induction rows as [|r rows IH]; [reflexivity|].
  rewrite fmap_cons. cbn [existsb].
  rewrite IH, only_Fecha_Valor_lookup by exact Hc. reflexivity.
Qed.

Lemma column_of_lookup rows c i r :
  rows !! i = Some r -> column_of rows c !! i = Some (default NaN (r !! c)).
Proof.
  intros Hi. unfold column_of. rewrite list_lookup_fmap, Hi. reflexivity.
Qed.

(** What lines 117-119 do with a [Data] that is a list of dicts. *)
Lemma get_series_decode_records o rows :
  o !! "Data" = Some (JArr (JObj <$> rows)) ->
  get_series_decode (JObj o)
  = match missing_columns rows with
    | [] => cast_columns rows
    | missing => Raise (KeyError missing)
    end.
Proof.
  intros Ho. unfold get_series_decode, subscript.
  rewrite Ho; simpl rbind. unfold pd_DataFrame.
  rewrite as_records_objects; simpl rbind.
  remember (DataFrame_of_records rows) as df eqn:Hdf.
  assert (Hlk : forall c, df_data df !! c
                = if has_column rows c then Some (column_of rows c)
                  else None)
    by (intros c; subst df; apply lookup_DataFrame_of_records).
  clear Hdf. unfold getitem, missing_columns.
  rewrite !filter_cons, !filter_nil, !Hlk.
  destruct (has_column rows "Fecha") eqn:HF,
           (has_column rows "Valor") eqn:HV;
    repeat case_decide; try congruence; try reflexivity.
  simpl rbind. unfold astype_set_index; cbn [df_data].
  assert (Hcol : forall c, c ∈ ["Fecha"; "Valor"] ->
    has_column rows c = true ->
    filter (fun kv : string * list json => kv.1 ∈ ["Fecha"; "Valor"])
      (df_data df) !! c
    = Some (column_of rows c)).
  { intros c Hc Hhas. apply map_lookup_filter_Some.
    rewrite Hlk, Hhas. split; [reflexivity|exact Hc]. }
  rewrite (Hcol "Fecha"), (Hcol "Valor");
    [reflexivity|set_solver|exact HV|set_solver|exact HF].
Qed.

Lemma has_column_false rows c :
  has_column rows c = false <-> forall r, r ∈ rows -> r !! c = None.
Proof.
  rewrite <- not_true_iff_false, has_column_true. split.
  - intros H r Hr. apply eq_None_not_Some. intros Hc. apply H. eauto.
  - intros H (r & Hr & Hc). rewrite (H r Hr) in Hc.
    destruct Hc as [x Hx]. discriminate Hx.
Qed.

Lemma elem_of_missing_columns rows c :
  c ∈ missing_columns rows
  <-> (c = "Fecha" \/ c = "Valor") /\ forall r, r ∈ rows -> r !! c = None.
Proof.
  unfold missing_columns. rewrite list_elem_of_filter, has_column_false.
  set_solver.
Qed.

Lemma missing_columns_nil rows :
  missing_columns rows = []
  <-> has_column rows "Fecha" = true /\ has_column rows "Valor" = true.
Proof.
  unfold missing_columns. rewrite !filter_cons, filter_nil.
  destruct (has_column rows "Fecha"), (has_column rows "Valor");
    repeat case_decide; try congruence;
    (split; [first [discriminate|intros _; split; reflexivity]
            |intros [? ?]; congruence]).
Qed.

Lemma cast_columns_only rows :
  cast_columns (only_Fecha_Valor <$> rows) = cast_columns rows.
Proof.
  unfold cast_columns. rewrite !column_of_only by auto. reflexivity.
Qed.

Lemma missing_columns_only rows :
  missing_columns (only_Fecha_Valor <$> rows) = missing_columns rows.
Proof.
  unfold missing_columns. rewrite !filter_cons, !filter_nil.
  rewrite !has_column_only by auto. reflexivity.
Qed.

(** The fields of the rows other than [Fecha] and [Valor], and the
    fields of the payload other than [Data], have no part in the
    result. *)
Lemma get_series_decode_only o rows :
  o !! "Data" = Some (JArr (JObj <$> rows)) ->
  get_series_decode
    (JObj {[ "Data" := JArr (JObj <$> (only_Fecha_Valor <$> rows)) ]})
  = get_series_decode (JObj o).
Proof.
  intros Ho.
  rewrite (get_series_decode_records o rows Ho).
  rewrite (get_series_decode_records _ (only_Fecha_Valor <$> rows))
    by apply lookup_singleton_eq.
  rewrite missing_columns_only, cast_columns_only. reflexivity.
Qed.

(** A cell that does not cast makes the cast of its column fail, with
    the exception of a cell of that column. *)
Lemma rmap_fails {A B} (f : A -> result B) l i x e :
  l !! i = Some x -> f x = Raise e ->
  exists e' j x', rmap f l = Raise e' /\ l !! j = Some x' /\ f x' = Raise e'.
Proof.
  intros Hi Hx. destruct (rmap f l) as [l'|e'] eqn:Hl.
  - apply rmap_Ok_Forall2 in Hl.
    destruct (Forall2_lookup_l _ _ _ _ _ Hl Hi) as (y & _ & Hy). congruence.
  - apply rmap_Raise in Hl as (j & x' & Hj & Hx' & _). eauto 6.
Qed.

(** C3. When the response is a dict whose [Data] is a non-empty list of
    dicts, each with a [Fecha] and a [Valor] that cast to
    [datetime64[ms]] and [float64], [get_series] returns a frame with
    as many records as the list has elements: record [i] is the cast
    [Fecha] and the cast [Valor] of element [i], and the result is the
    one of the payload stripped of every other field. *)
Theorem C3_decode_keeps_rows_in_order
    (o : gmap string json) (rows : list (gmap string json))
    (series : pyval) (date : date_arg) (last geo : pyval) (st : state) :
  http_get (sent st) (series_request (self st) series date last geo)
  = Ok (JObj o) ->
  o !! "Data" = Some (JArr (JObj <$> rows)) ->
  rows <> [] ->
  (forall r, r ∈ rows ->
     exists fe va d v,
       r !! "Fecha" = Some fe /\ r !! "Valor" = Some va
       /\ astype_datetime64ms fe = Ok d /\ astype_float64 va = Ok v) ->
  exists fr,
    (get_series series date last geo st).1 = Ok fr
    /\ length (records fr) = length rows
    /\ (forall i r, rows !! i = Some r ->
          exists fe va d v,
            r !! "Fecha" = Some fe /\ r !! "Valor" = Some va
            /\ astype_datetime64ms fe = Ok d /\ astype_float64 va = Ok v
            /\ records fr !! i = Some (d, v))
    /\ get_series_decode
         (JObj {[ "Data" := JArr (JObj <$> (only_Fecha_Valor <$> rows)) ]})
       = Ok fr.
Proof.
  intros Hhttp Ho Hne Hrows.
  rewrite get_series_result, Hhttp; simpl rbind.
  rewrite (get_series_decode_only o rows Ho).
  rewrite (get_series_decode_records o rows Ho).
  assert (Hmiss : missing_columns rows = []).
  { apply missing_columns_nil. destruct rows as [|r rows]; [congruence|].
    destruct (Hrows r) as (fe & va & d & v & HF & HV & _); [left|].
    split; apply has_column_true; exists r; (split; [left|eauto]). }
  rewrite Hmiss. unfold cast_columns.
  destruct (rmap_total astype_datetime64ms (column_of rows "Fecha"))
    as [fechas HFs].
  { intros x Hx. apply list_elem_of_fmap in Hx as (r & -> & Hr).
    destruct (Hrows r Hr) as (fe & va & d & v & HF & HV & Hd & Hv).
    rewrite HF; simpl. eauto. }
  destruct (rmap_total astype_float64 (column_of rows "Valor"))
    as [valores HVs].
  { intros x Hx. apply list_elem_of_fmap in Hx as (r & -> & Hr).
    destruct (Hrows r Hr) as (fe & va & d & v & HF & HV & Hd & Hv).
    rewrite HV; simpl. eauto. }
  rewrite HFs, HVs; simpl rbind.
  apply rmap_Ok_Forall2 in HFs, HVs.
  eexists; split; [reflexivity|]. unfold records; cbn [sf_Fecha sf_Valor].
  split; [|split; [|reflexivity]].
  - rewrite length_zip_with_l_eq.
    + rewrite <- (Forall2_length _ _ _ HFs). unfold column_of.
      apply length_fmap.
    + rewrite <- (Forall2_length _ _ _ HFs), <- (Forall2_length _ _ _ HVs).
      unfold column_of. rewrite !length_fmap. reflexivity.
  - intros i r Hi.
    destruct (Hrows r) as (fe & va & d & v & HF & HV & Hd & Hv);
      [eapply list_elem_of_lookup_2; exact Hi|].
    exists fe, va, d, v. repeat (split; [assumption|]).
    apply lookup_zip_with_Some. exists d, v. split; [reflexivity|].
    pose proof (column_of_lookup rows "Fecha" i r Hi) as HcF.
    pose proof (column_of_lookup rows "Valor" i r Hi) as HcV.
    rewrite HF in HcF. rewrite HV in HcV. simpl in HcF, HcV.
    destruct (Forall2_lookup_l _ _ _ _ _ HFs HcF) as (d' & Hd' & Hfd).
    destruct (Forall2_lookup_l _ _ _ _ _ HVs HcV) as (v' & Hv' & Hfv).
    split; congruence.
Qed.

(** C4. The failures of the decoding, for a response that is a dict:
    without [Data], [KeyError] on ["Data"]; with a [Data] that is a
    list of dicts none of which has [Fecha], or none of which has
    [Valor], [KeyError] on the labels no row has; with both columns
    there and a cell of one of them that does not cast, the exception
    of the cast of such a cell. *)
Theorem C4_decode_failures
    (o : gmap string json) (rows : list (gmap string json))
    (series : pyval) (date : date_arg) (last geo : pyval) (st : state) :
  http_get (sent st) (series_request (self st) series date last geo)
  = Ok (JObj o) ->
  (o !! "Data" = None ->
   (get_series series date last geo st).1 = Raise (KeyError ["Data"]))
  /\ (o !! "Data" = Some (JArr (JObj <$> rows)) ->
      (forall r, r ∈ rows -> r !! "Fecha" = None)
      \/ (forall r, r ∈ rows -> r !! "Valor" = None) ->
      missing_columns rows <> []
      /\ (get_series series date last geo st).1
         = Raise (KeyError (missing_columns rows)))
  /\ (o !! "Data" = Some (JArr (JObj <$> rows)) ->
      missing_columns rows = [] ->
      (exists i r,
         rows !! i = Some r
         /\ ((exists e, astype_datetime64ms (default NaN (r !! "Fecha"))
                        = Raise e)
             \/ (exists e, astype_float64 (default NaN (r !! "Valor"))
                           = Raise e))) ->
      exists e j r',
        (get_series series date last geo st).1 = Raise e
        /\ rows !! j = Some r'
        /\ (astype_datetime64ms (default NaN (r' !! "Fecha")) = Raise e
            \/ astype_float64 (default NaN (r' !! "Valor")) = Raise e)).
Proof.
  intros Hhttp. rewrite get_series_result, Hhttp; simpl rbind.
  split; [|split].
  - intros Ho. unfold get_series_decode, subscript. rewrite Ho. reflexivity.
  - intros Ho Hnone.
    assert (Hm : missing_columns rows <> []).
    { intros Hnil.
      destruct Hnone as [H|H];
        [assert (Hin : "Fecha" ∈ missing_columns rows)
        |assert (Hin : "Valor" ∈ missing_columns rows)];
        try (apply elem_of_missing_columns; split; [auto|exact H]);
        rewrite Hnil in Hin; inversion Hin. }
    split; [exact Hm|].
    rewrite (get_series_decode_records o rows Ho).
    destruct (missing_columns rows); [congruence|reflexivity].
  - intros Ho Hmiss (i & r & Hi & Hfail).
    rewrite (get_series_decode_records o rows Ho), Hmiss.
    unfold cast_columns.
    pose proof (column_of_lookup rows "Fecha" i r Hi) as HcF.
    pose proof (column_of_lookup rows "Valor" i r Hi) as HcV.
    destruct (rmap astype_datetime64ms (column_of rows "Fecha"))
      as [fechas|e'] eqn:HFs.
    + simpl rbind. apply rmap_Ok_Forall2 in HFs.
      destruct Hfail as [[e He]|[e He]].
      * destruct (Forall2_lookup_l _ _ _ _ _ HFs HcF) as (d & _ & Hd).
        congruence.
      * destruct (rmap_fails astype_float64 _ _ _ _ HcV He)
          as (e' & j & x' & Hr & Hj & Hx').
        rewrite Hr; simpl rbind.
        unfold column_of in Hj.
        apply list_lookup_fmap_Some in Hj as (r' & -> & Hj).
        exists e', j, r'. auto.
    + simpl rbind.
      apply rmap_Raise in HFs as (j & x' & Hj & Hx' & _).
      unfold column_of in Hj.
      apply list_lookup_fmap_Some in Hj as (r' & -> & Hj).
      exists e', j, r'. auto.
Qed.

(** ** More on the parameters *)

(** [last] and [geo] are entries of the parameters exactly when they are
    not [None], with the value that was passed, whatever it is; and the
    parameters have no key but [date], [last] and [geo]. *)
Theorem params_last_geo_and_no_other_key date last geo :
  get_series_params date last geo !! "last"
  = (if is_None last then None else Some last)
  /\ get_series_params date last geo !! "geo"
     = (if is_None geo then None else Some geo)
  /\ forall k, k <> "date" -> k <> "last" -> k <> "geo" ->
       get_series_params date last geo !! k = None.
Proof.
  unfold get_series_params. split; [|split].
  - rewrite !lookup_update_if_not_None.
    destruct last; simpl; repeat case_decide; naive_solver.
  - rewrite !lookup_update_if_not_None.
    destruct geo; simpl; repeat case_decide; naive_solver.
  - intros k Hd Hl Hg. rewrite !lookup_update_if_not_None.
    repeat case_decide; naive_solver.
Qed.

(** The parameters lack the [date] entry only when [date] is [None]: a
    slice, open on both sides or not, and a list, empty or not, always
    give one. *)
Theorem params_date_absent_iff date last geo :
  get_series_params date last geo !! "date" = None
  <-> date_is_None date = true.
Proof.
  rewrite params_lookup_date.
  destruct date as [[| | |]| |]; simpl; split; congruence.
Qed.

(** For a list the [date] entry only depends on the length of the list:
    two lists of the same length make [get_series] the same call. *)
Theorem get_series_list_only_length
    (l l' : list pyval) (series last geo : pyval) :
  length l = length l' ->
  get_series series (DList l) last geo
  = get_series series (DList l') last geo
  /\ get_series_params (DList l) last geo !! "date"
     = Some (PStr (join "&" (replicate (length l) "date={d}"))).
Proof.
  intros Hlen.
  assert (Hp : forall a b : list pyval, length a = length b ->
            get_series_params (DList a) last geo
            = get_series_params (DList b) last geo).
  { intros a b Hab. unfold get_series_params.
    rewrite !get_series_date_list, Hab. reflexivity. }
  split.
  - unfold get_series. rewrite (Hp l l' Hlen). reflexivity.
  - rewrite params_lookup_date, get_series_date_list. reflexivity.
Qed.

(** ** More on the wrappers *)

(** The request of [get_ipc] always has a [date] entry, and always asks
    for [DATOS_SERIE/IPC206449]. *)
Theorem get_ipc_always_sends_date date last geo st :
  exists r v,
    sent (get_ipc date last geo st).2 = sent st ++ [r]
    /\ url r = endpoint (self st) +:+ "/DATOS_SERIE/IPC206449"
    /\ params r !! "date" = Some v.
Proof.
  unfold get_ipc. rewrite get_series_state. cbn [sent].
  destruct (date_is_None date) eqn:Hd.
  - eexists _, _. split; [reflexivity|]. split; [reflexivity|].
    cbn [params series_request]. rewrite params_lookup_date. reflexivity.
  - destruct (get_series_params date last geo !! "date") as [v|] eqn:Hv.
    + eexists _, v. split; [reflexivity|]. split; [reflexivity|exact Hv].
    + apply params_date_absent_iff in Hv. congruence.
Qed.

(** [get_cntr2010] is [get_series] on the series 30024, which as a number
    or as the string ["30024"] gives the same call; unlike [get_ipc] it
    puts no date of its own: with no argument the request has no
    parameter at all. *)
Theorem get_cntr2010_request date last geo st :
  get_cntr2010 date last geo = get_series (PStr "30024") date last geo
  /\ (get_cntr2010 date last geo st).2
     = {| self := self st;
          sent := sent st
                  ++ [{| url := endpoint (self st) +:+ "/DATOS_SERIE/30024";
                         params := get_series_params date last geo |}] |}
  /\ get_series_params (DVal PNone) PNone PNone = ∅.
Proof.
  split; [reflexivity|]. split; [|reflexivity].
  unfold get_cntr2010. rewrite get_series_state. reflexivity.
Qed.

(** ** More on the requests of a sequence of calls *)

Lemma append_assoc (a b c : string) : (a +:+ b) +:+ c = a +:+ (b +:+ c).
Proof.
  induction a as [|x a IH]; [reflexivity|].
  change (String x ((a +:+ b) +:+ c) = String x (a +:+ (b +:+ c))).
  f_equal. exact IH.
Qed.

(** What a call does to the client and to the requests: [set_language]
    and [get_tables] send nothing, every other call sends one request,
    below the endpoint of the client, and keeps the client. *)
Lemma exec_state c st :
  exists new,
    sent (exec c st).2 = sent st ++ new
    /\ length new = (if sends_request c then 1 else 0)
    /\ Forall (below_endpoint (self st)) new
    /\ (is_set_language c = false -> self (exec c st).2 = self st).
Proof.
  pose proof (fun series date last geo =>
    get_series_state series date last geo st) as Hs.
  destruct c; simpl; unfold get_ipc, get_cntr2010; rewrite ?Hs; simpl;
    try (eexists [_]; split; [reflexivity|]; split; [reflexivity|];
         split; [repeat constructor; eexists; reflexivity|reflexivity]);
    (exists []; rewrite app_nil_r; split; [reflexivity|];
     split; [reflexivity|]; split; [constructor|]);
    [discriminate|reflexivity].
Qed.


(** Whatever the calls, the language settings among them included, a
    client whose endpoint is under the base URL keeps such an endpoint
    and only sends requests under the base URL. *)
Theorem run_stays_under_base_url cs st :
  under_base_url (endpoint (self st)) ->
  Forall (fun r => under_base_url (url r)) (sent st) ->
  under_base_url (endpoint (self (run cs st).2))
  /\ Forall (fun r => under_base_url (url r)) (sent (run cs st).2).
Proof.
  revert st. induction cs as [|c cs IH]; intros st Hself Hsent.
  - split; assumption.
  - rewrite run_cons; cbn [snd]. apply IH.
    + destruct (is_set_language c) eqn:Hc.
      * destruct c; try discriminate Hc. simpl. eexists; reflexivity.
      * destruct (exec_state c st) as (new & _ & _ & _ & Hkeep).
        rewrite (Hkeep Hc). exact Hself.
    + destruct (exec_state c st) as (new & -> & _ & Hnew & _).
      apply Forall_app; split; [exact Hsent|].
      eapply Forall_impl; [exact Hnew|].
      intros r [path Hr]. destruct Hself as [rest Hrest].
      exists (rest +:+ "/" +:+ path).
      rewrite Hr, Hrest, append_assoc. reflexivity.
Qed.


(** ** More on the decoding *)

(** A response that is not a dict ends [get_series] with [TypeError]. *)
Theorem get_series_response_not_dict
    (j : json) (series : pyval) (date : date_arg) (last geo : pyval)
    (st : state) :
  http_get (sent st) (series_request (self st) series date last geo) = Ok j ->
  (forall o, j <> JObj o) ->
  (get_series series date last geo st).1 = Raise TypeError.
Proof.
  intros Hhttp Hj. rewrite get_series_result, Hhttp; simpl rbind.
  destruct j; try reflexivity. destruct (Hj o). reflexivity.
Qed.

Lemma column_of_length rows c : length (column_of rows c) = length rows.
Proof. unfold column_of. apply length_fmap. Qed.

Lemma cast_columns_Ok rows fr :
  cast_columns rows = Ok fr <->
  Forall2 (fun x d => astype_datetime64ms x = Ok d)
    (column_of rows "Fecha") (sf_Fecha fr)
  /\ Forall2 (fun x v => astype_float64 x = Ok v)
       (column_of rows "Valor") (sf_Valor fr).
Proof.
  unfold cast_columns. rewrite <- !rmap_Ok_Forall2.
  destruct (rmap astype_datetime64ms _) as [fechas|e]; simpl.
  - destruct (rmap astype_float64 _) as [valores|e]; simpl.
    + destruct fr as [fe va]; simpl. split.
      * intros [= <- <-]. split; reflexivity.
      * intros [[= <-] [= <-]]. reflexivity.
    + split; [discriminate|]. intros [_ H]. discriminate H.
  - split; [discriminate|]. intros [H _]. discriminate H.
Qed.

(** A frame that [get_series] returns for a list of dicts is never
    empty: it has one [Fecha] and one [Valor] for each element of the
    list, and the list has an element. *)
Theorem get_series_frame_rows
    (o : gmap string json) (rows : list (gmap string json))
    (fr : SeriesFrame) :
  o !! "Data" = Some (JArr (JObj <$> rows)) ->
  get_series_decode (JObj o) = Ok fr ->
  rows <> []
  /\ length (sf_Fecha fr) = length rows
  /\ length (sf_Valor fr) = length rows
  /\ length (records fr) = length rows.
Proof.
  intros Ho Hfr. rewrite (get_series_decode_records o rows Ho) in Hfr.
  destruct (missing_columns rows) as [|c cs] eqn:Hmiss; [|discriminate Hfr].
  apply cast_columns_Ok in Hfr as [HF HV].
  apply Forall2_length in HF, HV. rewrite column_of_length in HF, HV.
  split.
  - intros ->. discriminate Hmiss.
  - split; [congruence|]. split; [congruence|].
    unfold records. rewrite length_zip_with_l_eq; congruence.
Qed.

(** With [Fecha] in some element and [Valor] in some element, the
    elements that lack one of them do not fail the selection: their cell
    is [NaN], and when every cell casts the frame has one record for each
    element, the casts of its two cells, in the order of the list. *)
Theorem get_series_fills_NaN
    (o : gmap string json) (rows : list (gmap string json))
    (series : pyval) (date : date_arg) (last geo : pyval) (st : state) :
  http_get (sent st) (series_request (self st) series date last geo)
  = Ok (JObj o) ->
  o !! "Data" = Some (JArr (JObj <$> rows)) ->
  has_column rows "Fecha" = true ->
  has_column rows "Valor" = true ->
  (forall r, r ∈ rows ->
     exists d v,
       astype_datetime64ms (default NaN (r !! "Fecha")) = Ok d
       /\ astype_float64 (default NaN (r !! "Valor")) = Ok v) ->
  exists fr,
    (get_series series date last geo st).1 = Ok fr
    /\ length (records fr) = length rows
    /\ forall i r, rows !! i = Some r ->
         exists d v,
           astype_datetime64ms (default NaN (r !! "Fecha")) = Ok d
           /\ astype_float64 (default NaN (r !! "Valor")) = Ok v
           /\ records fr !! i = Some (d, v).
Proof.
  intros Hhttp Ho HF HV Hrows.
  rewrite get_series_result, Hhttp; simpl rbind.
  rewrite (get_series_decode_records o rows Ho).
  rewrite (proj2 (missing_columns_nil rows) (conj HF HV)).
  destruct (rmap_total astype_datetime64ms (column_of rows "Fecha"))
    as [fechas HFs].
  { intros x Hx. apply list_elem_of_fmap in Hx as (r & -> & Hr).
    destruct (Hrows r Hr) as (d & v & Hd & Hv). eauto. }
  destruct (rmap_total astype_float64 (column_of rows "Valor"))
    as [valores HVs].
  { intros x Hx. apply list_elem_of_fmap in Hx as (r & -> & Hr).
    destruct (Hrows r Hr) as (d & v & Hd & Hv). eauto. }
  unfold cast_columns. rewrite HFs, HVs; simpl rbind.
  apply rmap_Ok_Forall2 in HFs, HVs.
  eexists; split; [reflexivity|]. unfold records; cbn [sf_Fecha sf_Valor].
  split.
  - rewrite length_zip_with_l_eq.
    + rewrite <- (Forall2_length _ _ _ HFs). apply column_of_length.
    + rewrite <- (Forall2_length _ _ _ HFs), <- (Forall2_length _ _ _ HVs).
      rewrite !column_of_length. reflexivity.
  - intros i r Hi.
    destruct (Hrows r) as (d & v & Hd & Hv);
      [eapply list_elem_of_lookup_2; exact Hi|].
    exists d, v. split; [exact Hd|]. split; [exact Hv|].
    apply lookup_zip_with_Some. exists d, v. split; [reflexivity|].
    pose proof (column_of_lookup rows "Fecha" i r Hi) as HcF.
    pose proof (column_of_lookup rows "Valor" i r Hi) as HcV.
    destruct (Forall2_lookup_l _ _ _ _ _ HFs HcF) as (d' & Hd' & Hfd).
    destruct (Forall2_lookup_l _ _ _ _ _ HVs HcV) as (v' & Hv' & Hfv).
    split; congruence.
Qed.

(** The decoding of two responses whose records agree on [Fecha] and
    [Valor] is the same, frame or exception: no other field of a record
    and no other field of the response has a part in it. *)
Theorem get_series_decode_other_fields
    (o o' : gmap string json) (rows rows' : list (gmap string json)) :
  o !! "Data" = Some (JArr (JObj <$> rows)) ->
  o' !! "Data" = Some (JArr (JObj <$> rows')) ->
  only_Fecha_Valor <$> rows = only_Fecha_Valor <$> rows' ->
  get_series_decode (JObj o) = get_series_decode (JObj o').
Proof.
  intros Ho Ho' Heq.
  rewrite <- (get_series_decode_only o rows Ho).
  rewrite <- (get_series_decode_only o' rows' Ho').
  rewrite Heq. reflexivity.
Qed.

End Client.

(** ** Runs on concrete inputs *)

Example params_open_end :
  get_series_params (DSlice (PStr "20000101") PNone PNone) PNone PNone
  = {[ "date" := PStr "20000101:" ]}.
Proof. reflexivity. Qed.

Example format_int : format (PInt 30024) = "30024".
Proof. reflexivity. Qed.

Example decode_two :
  get_series_decode no_DataFrame_other simple_astype_datetime64ms
    simple_astype_float64 payload_two
  = Ok {| sf_Fecha := [Timestamp 946684800000; Timestamp 949363200000];
          sf_Valor := [f100; f100_5] |}.
Proof. vm_compute. reflexivity. Qed.

Lemma C6_witness :
  (0 < 5)%Z
  /\ get_series_params (DVal PNone) (PInt 5) PNone = {[ "last" := PInt 5 ]}.
Proof.
  split; [lia|].
  apply (C6_last_and_geo (constant_http_get payload_two) no_DataFrame_other
           simple_astype_datetime64ms simple_astype_float64
           5 (PStr "IPC206449") st0).
  lia.
Defined.

Lemma C10_witness :
  date_is_None (DVal (PStr "20200101")) = false
  /\ get_ipc (constant_http_get payload_two) no_DataFrame_other
       simple_astype_datetime64ms simple_astype_float64
       (DVal (PStr "20200101")) PNone PNone
     = get_series (constant_http_get payload_two) no_DataFrame_other
         simple_astype_datetime64ms simple_astype_float64
         (PStr "IPC206449") (DVal (PStr "20200101")) PNone PNone.
Proof.
  split; [reflexivity|].
  apply (C10_get_ipc_default_date (constant_http_get payload_two)
           no_DataFrame_other simple_astype_datetime64ms
           simple_astype_float64 (DVal (PStr "20200101")) PNone PNone st0).
  reflexivity.
Defined.

Lemma C8_witness :
  forallb (fun c => negb (is_set_language c))
    [Call_get_series (PStr "IPC206449") (DVal PNone) (PInt 5) PNone] = true
  /\ self (run (constant_http_get payload_two) no_DataFrame_other
             simple_astype_datetime64ms simple_astype_float64
             ([Call_get_ipc (DVal PNone) PNone PNone]
              ++ Call_set_language (PStr "EN")
                 :: [Call_get_series (PStr "IPC206449") (DVal PNone)
                       (PInt 5) PNone])
             st0).2
     = {| endpoint := "https://servicios.ine.es/wstempus/js/EN" |}.
Proof.
  split; [reflexivity|].
  apply (C8_set_language_frame (constant_http_get payload_two)
           no_DataFrame_other simple_astype_datetime64ms
           simple_astype_float64 "EN"
           [Call_get_ipc (DVal PNone) PNone PNone]
           [Call_get_series (PStr "IPC206449") (DVal PNone) (PInt 5) PNone]
           st0).
  reflexivity.
Defined.

Lemma C9_witness :
  forallb (fun c => negb (is_set_language c))
    [Call_get_ipc (DVal PNone) PNone PNone; Call_get_tables] = true
  /\ Forall (fun r => exists path,
               url r = "https://servicios.ine.es/wstempus/js/ES/" +:+ path)
       (sent (run (constant_http_get payload_two) no_DataFrame_other
                simple_astype_datetime64ms simple_astype_float64
                [Call_get_ipc (DVal PNone) PNone PNone; Call_get_tables]
                {| self := INE_init; sent := [] |}).2).
Proof.
  split; [reflexivity|].
  apply (C9_default_language_ES (constant_http_get payload_two)
           no_DataFrame_other simple_astype_datetime64ms
           simple_astype_float64
           [Call_get_ipc (DVal PNone) PNone PNone; Call_get_tables] st0).
  reflexivity.
Defined.

Lemma rows_two_cast (r : gmap string json) :
  r ∈ rows_two ->
  exists fe va d v,
    r !! "Fecha" = Some fe /\ r !! "Valor" = Some va
    /\ simple_astype_datetime64ms fe = Ok d
    /\ simple_astype_float64 va = Ok v.
Proof.
  unfold rows_two. intros Hr.
  apply elem_of_cons in Hr as [->|Hr];
    [|apply elem_of_cons in Hr as [->|Hr]; [|inversion Hr]];
    do 4 eexists; repeat split; vm_compute; reflexivity.
Qed.

Lemma C3_witness :
  exists fr,
    (get_series (constant_http_get payload_two) no_DataFrame_other
       simple_astype_datetime64ms simple_astype_float64
       (PStr "IPC206449") (DSlice (PStr "20000101") PNone PNone)
       PNone PNone st0).1 = Ok fr
    /\ length (records fr) = 2.
Proof.
  destruct (C3_decode_keeps_rows_in_order (constant_http_get payload_two)
              no_DataFrame_other simple_astype_datetime64ms
              simple_astype_float64 dict_two rows_two
              (PStr "IPC206449") (DSlice (PStr "20000101") PNone PNone)
              PNone PNone st0)
    as (fr & Hfr & Hlen & _).
  - reflexivity.
  - reflexivity.
  - discriminate.
  - exact rows_two_cast.
  - exists fr. split; [exact Hfr|exact Hlen].
Defined.

(** C3 as the specification has it, at the list of no record: every one
    of its (no) elements has [Fecha] and [Valor], and the selection of
    the two columns fails before any cast, where the specification has a
    result of no record. *)
Lemma C3_counterexample_empty_Data :
  dict_empty_Data !! "Data"
  = Some (JArr (JObj <$> ([] : list (gmap string json))))
  /\ Forall (fun r : gmap string json =>
               is_Some (r !! "Fecha") /\ is_Some (r !! "Valor")) []
  /\ (get_series (constant_http_get (JObj dict_empty_Data))
        no_DataFrame_other simple_astype_datetime64ms simple_astype_float64
        (PStr "IPC206449") (DVal PNone) PNone PNone st0).1
     = Raise (KeyError ["Fecha"; "Valor"])
  /\ ~ (exists fr,
         (get_series (constant_http_get (JObj dict_empty_Data))
            no_DataFrame_other simple_astype_datetime64ms
            simple_astype_float64
            (PStr "IPC206449") (DVal PNone) PNone PNone st0).1 = Ok fr
         /\ length (records fr) = 0).
Proof.
  split; [reflexivity|]. split; [constructor|].
  assert (H : (get_series (constant_http_get (JObj dict_empty_Data))
        no_DataFrame_other simple_astype_datetime64ms simple_astype_float64
        (PStr "IPC206449") (DVal PNone) PNone PNone st0).1
     = Raise (KeyError ["Fecha"; "Valor"])) by (vm_compute; reflexivity).
  split; [exact H|].
  intros (fr & Hfr & _). rewrite H in Hfr. discriminate Hfr.
Qed.

Lemma C4_witness :
  (get_series (constant_http_get (JObj ∅)) no_DataFrame_other
     simple_astype_datetime64ms simple_astype_float64
     (PStr "IPC206449") (DVal PNone) PNone PNone st0).1
  = Raise (KeyError ["Data"])
  /\ (get_series (constant_http_get (JObj dict_no_Valor)) no_DataFrame_other
        simple_astype_datetime64ms simple_astype_float64
        (PStr "IPC206449") (DVal PNone) PNone PNone st0).1
     = Raise (KeyError (missing_columns rows_no_Valor))
  /\ (exists e j r',
        (get_series (constant_http_get (JObj dict_bad_Valor))
           no_DataFrame_other simple_astype_datetime64ms
           simple_astype_float64
           (PStr "IPC206449") (DVal PNone) PNone PNone st0).1 = Raise e
        /\ rows_bad_Valor !! j = Some r'
        /\ (simple_astype_datetime64ms (default NaN (r' !! "Fecha")) = Raise e
            \/ simple_astype_float64 (default NaN (r' !! "Valor")) = Raise e)).
Proof.
  split; [|split].
  - apply (C4_decode_failures (constant_http_get (JObj ∅)) no_DataFrame_other
             simple_astype_datetime64ms simple_astype_float64 ∅ []
             (PStr "IPC206449") (DVal PNone) PNone PNone st0);
      reflexivity.
  - apply (C4_decode_failures (constant_http_get (JObj dict_no_Valor))
             no_DataFrame_other simple_astype_datetime64ms
             simple_astype_float64 dict_no_Valor rows_no_Valor
             (PStr "IPC206449") (DVal PNone) PNone PNone st0);
      [reflexivity|reflexivity|].
    right. intros r Hr. apply list_elem_of_singleton in Hr as ->.
    reflexivity.
  - apply (C4_decode_failures (constant_http_get (JObj dict_bad_Valor))
             no_DataFrame_other simple_astype_datetime64ms
             simple_astype_float64 dict_bad_Valor rows_bad_Valor
             (PStr "IPC206449") (DVal PNone) PNone PNone st0);
      [reflexivity|reflexivity|vm_compute; reflexivity|].
    exists 1, {[ "Fecha" := JInt 949363200000; "Valor" := JStr "n/a" ]}.
    split; [reflexivity|]. right. eexists. vm_compute. reflexivity.
Defined.

(** C4 as the specification has it, at a response without [Data] and at
    a response whose second record has no [Valor]: the first ends with
    [KeyError] on ["Data"], which names no position; the second does not
    fail at the record, its cell is [NaN] and, with casts that keep
    [NaN], the frame has both records. *)
Lemma C4_counterexample_no_MalformedResponse :
  (get_series (constant_http_get (JObj ∅)) no_DataFrame_other
     simple_astype_datetime64ms simple_astype_float64
     (PStr "IPC206449") (DVal PNone) PNone PNone st0).1
  = Raise (KeyError ["Data"])
  /\ exn_name (KeyError ["Data"]) <> "MalformedResponse"
  /\ rows_partial !! 1 = Some {[ "Fecha" := JInt 949363200000 ]}
  /\ (get_series (constant_http_get (JObj dict_partial)) no_DataFrame_other
        simple_astype_datetime64ms simple_astype_float64
        (PStr "IPC206449") (DVal PNone) PNone PNone st0).1
     = Ok {| sf_Fecha := [Timestamp 946684800000; Timestamp 949363200000];
             sf_Valor := [f100; S754_nan] |}.
Proof.
  split; [vm_compute; reflexivity|].
  split; [discriminate|].
  split; [reflexivity|].
  vm_compute. reflexivity.
Qed.

(** ** More runs, and the requests under two transports *)

Lemma exec_state_any_transport
    http_get DataFrame_other astype_datetime64ms astype_float64
    http_get' DataFrame_other' astype_datetime64ms' astype_float64'
    (c : call) (st : state) :
  (exec http_get DataFrame_other astype_datetime64ms astype_float64 c st).2
  = (exec http_get' DataFrame_other' astype_datetime64ms' astype_float64'
       c st).2.
Proof.
  destruct c; simpl; unfold get_ipc, get_cntr2010;
    rewrite ?get_series_state; reflexivity.
Qed.

(** The client and the requests after a sequence of calls do not depend
    on what the service answers, nor on pandas: no call is repeated or
    added because of an answer or of a failure. *)
Theorem run_requests_do_not_depend_on_answers
    http_get DataFrame_other astype_datetime64ms astype_float64
    http_get' DataFrame_other' astype_datetime64ms' astype_float64'
    (cs : list call) (st : state) :
  (run http_get DataFrame_other astype_datetime64ms astype_float64 cs st).2
  = (run http_get' DataFrame_other' astype_datetime64ms' astype_float64'
       cs st).2.
Proof.
  revert st. induction cs as [|c cs IH]; intros st; [reflexivity|].
  rewrite !run_cons; cbn [snd].
  rewrite (exec_state_any_transport
             http_get DataFrame_other astype_datetime64ms astype_float64
             http_get' DataFrame_other' astype_datetime64ms'
             astype_float64').
  apply IH.
Qed.

Lemma params_last_geo_and_no_other_key_witness :
  "series" <> "date" /\ "series" <> "last" /\ "series" <> "geo"
  /\ get_series_params (DVal (PStr "20200101")) (PInt 0) (PInt 1)
       !! "series" = None.
Proof.
  split; [discriminate|]. split; [discriminate|]. split; [discriminate|].
  apply (params_last_geo_and_no_other_key
           (DVal (PStr "20200101")) (PInt 0) (PInt 1));
    discriminate.
Defined.

Lemma params_date_absent_iff_witness :
  date_is_None (DVal PNone) = true
  /\ get_series_params (DVal PNone) (PInt 5) PNone !! "date" = None.
Proof.
  split; [reflexivity|].
  apply (params_date_absent_iff (DVal PNone) (PInt 5) PNone).
  reflexivity.
Defined.

Lemma get_series_list_only_length_witness :
  length [PStr "20200101"; PStr "20200102"]
  = length [PStr "19990101"; PInt 7]
  /\ get_series counting_http_get no_DataFrame_other
       simple_astype_datetime64ms simple_astype_float64
       (PStr "IPC206449") (DList [PStr "20200101"; PStr "20200102"])
       PNone PNone
     = get_series counting_http_get no_DataFrame_other
         simple_astype_datetime64ms simple_astype_float64
         (PStr "IPC206449") (DList [PStr "19990101"; PInt 7]) PNone PNone.
Proof.
  split; [reflexivity|].
  apply (get_series_list_only_length counting_http_get no_DataFrame_other
           simple_astype_datetime64ms simple_astype_float64
           [PStr "20200101"; PStr "20200102"] [PStr "19990101"; PInt 7]
           (PStr "IPC206449") PNone PNone).
  reflexivity.
Defined.

Lemma run_stays_under_base_url_witness :
  under_base_url (endpoint (self st0))
  /\ Forall (fun r => under_base_url (url r)) (sent st0)
  /\ Forall (fun r => under_base_url (url r))
       (sent (run counting_http_get no_DataFrame_other
                simple_astype_datetime64ms simple_astype_float64
                [Call_get_functions get_functions_default;
                 Call_set_language (PStr "EN");
                 Call_get_cntr2010 (DVal PNone) PNone PNone;
                 Call_set_language PNone;
                 Call_get_input (PStr "VARIABLES") ∅]
                st0).2).
Proof.
  assert (H0 : under_base_url (endpoint (self st0)))
    by (exists "ES"; reflexivity).
  assert (H1 : Forall (fun r => under_base_url (url r)) (sent st0))
    by constructor.
  split; [exact H0|]. split; [exact H1|].
  apply (run_stays_under_base_url counting_http_get no_DataFrame_other
           simple_astype_datetime64ms simple_astype_float64 _ st0 H0 H1).
Defined.


Lemma get_series_response_not_dict_witness :
  (get_series (constant_http_get (JArr [JObj dict_two])) no_DataFrame_other
     simple_astype_datetime64ms simple_astype_float64
     (PStr "IPC206449") (DVal PNone) PNone PNone st0).1
  = Raise TypeError.
Proof.
  apply (get_series_response_not_dict
           (constant_http_get (JArr [JObj dict_two])) no_DataFrame_other
           simple_astype_datetime64ms simple_astype_float64
           (JArr [JObj dict_two]) (PStr "IPC206449") (DVal PNone)
           PNone PNone st0).
  - reflexivity.
  - intros o. discriminate.
Defined.

Lemma get_series_frame_rows_witness :
  rows_two <> []
  /\ length (sf_Fecha {| sf_Fecha := [Timestamp 946684800000;
                                      Timestamp 949363200000];
                         sf_Valor := [f100; f100_5] |})
     = length rows_two.
Proof.
  destruct (get_series_frame_rows no_DataFrame_other
              simple_astype_datetime64ms simple_astype_float64
              dict_two rows_two
              {| sf_Fecha := [Timestamp 946684800000; Timestamp 949363200000];
                 sf_Valor := [f100; f100_5] |})
    as (Hne & HF & _).
  - reflexivity.
  - vm_compute. reflexivity.
  - split; [exact Hne|exact HF].
Defined.

Lemma rows_partial_cast (r : gmap string json) :
  r ∈ rows_partial ->
  exists d v,
    simple_astype_datetime64ms (default NaN (r !! "Fecha")) = Ok d
    /\ simple_astype_float64 (default NaN (r !! "Valor")) = Ok v.
Proof.
  unfold rows_partial. intros Hr.
  apply elem_of_cons in Hr as [->|Hr];
    [|apply elem_of_cons in Hr as [->|Hr]; [|inversion Hr]];
    do 2 eexists; split; vm_compute; reflexivity.
Qed.

Lemma get_series_fills_NaN_witness :
  exists fr,
    (get_series (constant_http_get (JObj dict_partial)) no_DataFrame_other
       simple_astype_datetime64ms simple_astype_float64
       (PStr "IPC206449") (DVal PNone) PNone PNone st0).1 = Ok fr
    /\ length (records fr) = 2.
Proof.
  destruct (get_series_fills_NaN (constant_http_get (JObj dict_partial))
              no_DataFrame_other simple_astype_datetime64ms
              simple_astype_float64 dict_partial rows_partial
              (PStr "IPC206449") (DVal PNone) PNone PNone st0)
    as (fr & Hfr & Hlen & _).
  - reflexivity.
  - reflexivity.
  - reflexivity.
  - reflexivity.
  - exact rows_partial_cast.
  - exists fr. split; [exact Hfr|exact Hlen].
Defined.

Lemma get_series_decode_other_fields_witness :
  get_series_decode no_DataFrame_other simple_astype_datetime64ms
    simple_astype_float64 (JObj dict_two)
  = get_series_decode no_DataFrame_other simple_astype_datetime64ms
      simple_astype_float64 (JObj dict_two_verbose).
Proof.
  apply (get_series_decode_other_fields no_DataFrame_other
           simple_astype_datetime64ms simple_astype_float64
           dict_two dict_two_verbose rows_two rows_two_verbose).
  - reflexivity.
  - reflexivity.
  - vm_compute. reflexivity.
Defined.
